(** * The Jenkins SSH-credential resource: Create, Read, Update, Delete, Import

    A shallow embedding of [jenkins/resource_jenkins_credential_ssh.go].

    - Go strings are byte sequences: [string] (a list of 8-bit [ascii]).
    - [*schema.ResourceData] is a record holding the identifier and the
      attribute map ([gmap string string]: every attribute of the schema is a
      [TypeString]).
    - The remote Jenkins server is an oracle answering each call from the
      calls made so far; the handlers run in a state monad over that log, so
      that "which remote calls were issued" is something a theorem can say.
    - The helpers [formatFolderName] and [generateCredentialID] are declared
      in other files of the package; the handlers take them as parameters.
    - The [Schema] map of the resource is a [gmap] from attribute names to
      the flags the source sets. *)

From Stdlib Require Import Ascii String.
From stdpp Require Import base option list strings gmap.

(** ** The parts of Go's [strings] package the resource uses *)

Module strings.

(** [strings.Split(s, sep)] for a one-byte separator: all the substrings
    between separators; a string with [n] separators gives [n + 1] pieces. *)
Fixpoint Split (s : string) (sep : ascii) : list string :=
  match s with
  | EmptyString => [EmptyString]
  | String c s' =>
      if Ascii.eqb c sep then EmptyString :: Split s' sep
      else match Split s' sep with
           | [] => [String c EmptyString]
           | w :: ws => String c w :: ws
           end
  end.

(** [strings.Join(elems, sep)]. *)
Fixpoint Join (elems : list string) (sep : string) : string :=
  match elems with
  | [] => EmptyString
  | [x] => x
  | x :: rest => x +:+ sep +:+ Join rest sep
  end.

Fixpoint contains_byte (cutset : string) (c : ascii) : bool :=
  match cutset with
  | EmptyString => false
  | String k cutset' => Ascii.eqb c k || contains_byte cutset' c
  end.

Fixpoint TrimLeft (s cutset : string) : string :=
  match s with
  | EmptyString => EmptyString
  | String c s' => if contains_byte cutset c then TrimLeft s' cutset else s
  end.

Fixpoint TrimRight (s cutset : string) : string :=
  match s with
  | EmptyString => EmptyString
  | String c s' =>
      match TrimRight s' cutset with
      | EmptyString =>
          if contains_byte cutset c then EmptyString else String c EmptyString
      | t => String c t
      end
  end.

(** [strings.Trim(s, cutset)]: [s] without its leading and trailing bytes
    that occur in [cutset] (the cutsets used here are ASCII). *)
Definition Trim (s cutset : string) : string :=
  TrimRight (TrimLeft s cutset) cutset.

(** [strings.HasSuffix(s, suffix)]:
    [len(s) >= len(suffix) && s[len(s)-len(suffix):] == suffix]. *)
Definition HasSuffix (s suffix : string) : bool :=
  (String.length suffix <=? String.length s)%nat
  && String.eqb
       (String.substring (String.length s - String.length suffix)
          (String.length suffix) s)
       suffix.

End strings.

(** The byte ['/'] and the double-quote character. *)
Definition slash : ascii := "/"%char.
Definition dquote : string := String (ascii_of_nat 34) EmptyString.

(** [no_slash s]: the byte ['/'] does not occur in [s]. *)
Fixpoint no_slash (s : string) : bool :=
  match s with
  | EmptyString => true
  | String c s' => negb (Ascii.eqb c slash) && no_slash s'
  end.

(** ** [schema.ResourceData] *)

Record ResourceData := mkResourceData {
  rd_id : string;
  rd_attrs : gmap string string
}.

(** [d.Id()] *)
Definition d_Id (d : ResourceData) : string := rd_id d.

(** [d.SetId(v)] *)
Definition d_SetId (v : string) (d : ResourceData) : ResourceData :=
  {| rd_id := v; rd_attrs := rd_attrs d |}.

(** [d.Get(key).(string)]: the stored value, or the zero value of a string
    attribute when nothing is stored. *)
Definition d_Get (d : ResourceData) (key : string) : string :=
  default EmptyString (rd_attrs d !! key).

(** [d.Set(key, value)] *)
Definition d_Set (key value : string) (d : ResourceData) : ResourceData :=
  {| rd_id := rd_id d; rd_attrs := <[key := value]> (rd_attrs d) |}.

(** ** Go errors and [diag.Diagnostics] *)

(** A Go [error] is observed only through [err.Error()]; [None] is [nil]. *)
Definition error := option string.

Inductive Severity := Error | Warning.

Record Diagnostic := mkDiagnostic {
  diag_severity : Severity;
  diag_summary : string
}.

Definition Diagnostics := list Diagnostic.

(** [diag.Errorf(format, a...)], applied to the formatted message. *)
Definition diag_Errorf (msg : string) : Diagnostics :=
  [ {| diag_severity := Error; diag_summary := msg |} ].

(** [diag.FromErr(err)] *)
Definition diag_FromErr (err : error) : Diagnostics :=
  match err with
  | None => []
  | Some msg => [ {| diag_severity := Error; diag_summary := msg |} ]
  end.

(** [diags.HasError()] *)
Definition HasError (diags : Diagnostics) : bool :=
  existsb
    (fun dg => match diag_severity dg with Error => true | Warning => false end)
    diags.

(** ** The gojenkins credential payload *)

(** [jenkins.PrivateKey] *)
Record PrivateKey := mkPrivateKey {
  Class : string;
  Value : string
}.

(** [jenkins.KeySourceDirectEntryType] *)
Definition KeySourceDirectEntryType : string :=
  "com.cloudbees.jenkins.plugins.sshcredentials.impl.BasicSSHUserPrivateKey$DirectEntryPrivateKeySource".

(** [jenkins.SSHCredentials]. [PrivateKeySource] is an interface value:
    [None] is [nil]. *)
Record SSHCredentials := mkSSHCredentials {
  ID : string;
  Scope : string;
  Username : string;
  Description : string;
  PrivateKeySource : option PrivateKey;
  Passphrase : string
}.

(** The zero value [jenkins.SSHCredentials{}]. *)
Definition SSHCredentials_zero : SSHCredentials :=
  {| ID := ""; Scope := ""; Username := ""; Description := "";
     PrivateKeySource := None; Passphrase := "" |}.

(** [cred.Passphrase = v] *)
Definition set_Passphrase (v : string) (cred : SSHCredentials)
    : SSHCredentials :=
  {| ID := ID cred; Scope := Scope cred; Username := Username cred;
     Description := Description cred;
     PrivateKeySource := PrivateKeySource cred; Passphrase := v |}.

(** ** The remote server *)

(** One request to the Jenkins server. The credential calls are those of
    gojenkins' [CredentialsManager], scoped by its [Folder] field. *)
Inductive Call :=
  | CallFolderExists (folder : string)
  | CallAdd (folder domain : string) (cred : SSHCredentials)
  | CallGetSingle (folder domain name : string)
  | CallUpdate (folder domain name : string) (cred : SSHCredentials)
  | CallDelete (folder domain name : string).

(** A remote write is a call that changes the credential store. *)
Definition is_write (c : Call) : bool :=
  match c with
  | CallAdd _ _ _ | CallUpdate _ _ _ _ | CallDelete _ _ _ => true
  | CallFolderExists _ | CallGetSingle _ _ _ => false
  end.

(** The server: the error a call returns and, for [GetSingle], the object
    it decodes into the out-parameter, both as functions of the calls
    received before. *)
Record Jenkins := mkJenkins {
  jk_error : list Call -> Call -> error;
  jk_object : list Call -> Call -> SSHCredentials
}.

(** Handlers run against the log of the calls issued so far. *)
Definition Remote (A : Type) : Type := list Call -> A * list Call.

Definition ret {A} (a : A) : Remote A := fun log => (a, log).

Definition bind {A B} (m : Remote A) (k : A -> Remote B) : Remote B :=
  fun log => let '(a, log') := m log in k a log'.

Declare Scope remote_scope.
Delimit Scope remote_scope with remote.
Notation "'let*' x ':=' m 'in' k" := (bind m (fun x => k))
  (at level 10, x pattern, m at level 100, k at level 200) : remote_scope.

(** [jenkins.CredentialsManager], of which the handlers set [Folder]. *)
Record CredentialsManager := mkCredentialsManager { Folder : string }.

Section Resource.

(** Helpers of the package declared outside this file. *)
Variable formatFolderName : string -> string.
Variable generateCredentialID : string -> string -> string.

(** The server the client talks to. *)
Variable J : Jenkins.

Definition request (c : Call) : Remote error :=
  fun log => (jk_error J log c, log ++ [c]).

(** Modelled from the spec: [folderExists(ctx, client, folder)] is declared
    outside this file; it is the folder-existence probe, one read-only
    request whose error is non-nil when the folder does not exist. *)
Definition folderExists (folder : string) : Remote error :=
  request (CallFolderExists folder).

(** [cm.Add(ctx, domain, cred)] *)
Definition cm_Add (cm : CredentialsManager) (domain : string)
    (cred : SSHCredentials) : Remote error :=
  request (CallAdd (Folder cm) domain cred).

(** [cm.GetSingle(ctx, domain, name, &cred)]: the error and the new
    content of [cred]. *)
Definition cm_GetSingle (cm : CredentialsManager) (domain name : string)
    : Remote (error * SSHCredentials) :=
  fun log =>
    let c := CallGetSingle (Folder cm) domain name in
    ((jk_error J log c, jk_object J log c), log ++ [c]).

(** [cm.Update(ctx, domain, name, &cred)] *)
Definition cm_Update (cm : CredentialsManager) (domain name : string)
    (cred : SSHCredentials) : Remote error :=
  request (CallUpdate (Folder cm) domain name cred).

(** [cm.Delete(ctx, domain, name)] *)
Definition cm_Delete (cm : CredentialsManager) (domain name : string)
    : Remote error :=
  request (CallDelete (Folder cm) domain name).

Local Open Scope remote_scope.

(** [resourceJenkinsCredentialSSHRead]: the record after the call and the
    diagnostics returned. *)
Definition resourceJenkinsCredentialSSHRead (d : ResourceData)
    : Remote (ResourceData * Diagnostics) :=
  let cm := {| Folder := formatFolderName (d_Get d "folder") |} in
  let* res := cm_GetSingle cm (d_Get d "domain") (d_Get d "name") in
  let err := fst res in
  let cred := snd res in
  match err with
  | Some msg =>
      if strings.HasSuffix msg "404" then
        ret (d_SetId "" d, [])
      else
        ret (d, diag_Errorf ("Could not read ssh credentials: " +:+ msg))
  | None =>
      let d := d_SetId (generateCredentialID (d_Get d "folder") (ID cred)) d in
      let d := d_Set "scope" (Scope cred) d in
      let d := d_Set "description" (Description cred) d in
      ret (d, [])
  end.

(** [resourceJenkinsCredentialSSHCreate] *)
Definition resourceJenkinsCredentialSSHCreate (d : ResourceData)
    : Remote (ResourceData * Diagnostics) :=
  let cm := {| Folder := formatFolderName (d_Get d "folder") |} in
  let* err := folderExists (Folder cm) in
  match err with
  | Some msg =>
      ret (d, diag_FromErr
                (Some ("invalid folder name '" +:+ Folder cm
                       +:+ "' specified: " +:+ msg)))
  | None =>
      let cred :=
        {| ID := d_Get d "name";
           Scope := d_Get d "scope";
           Description := d_Get d "description";
           Username := d_Get d "username";
           PrivateKeySource :=
             Some {| Class := KeySourceDirectEntryType;
                     Value := d_Get d "privatekey" |};
           Passphrase := "" (* not in the literal: the zero value *) |} in
      let passphrase := d_Get d "passphrase" in
      let cred :=
        if (0 <? String.length passphrase)%nat
        then set_Passphrase passphrase cred else cred in
      let domain := d_Get d "domain" in
      let* err := cm_Add cm domain cred in
      match err with
      | Some msg =>
          ret (d, diag_Errorf ("Could not create ssh credentials: " +:+ msg))
      | None =>
          let d :=
            d_SetId (generateCredentialID (d_Get d "folder") (ID cred)) d in
          resourceJenkinsCredentialSSHRead d
      end
  end.

(** [resourceJenkinsCredentialSSHUpdate] *)
Definition resourceJenkinsCredentialSSHUpdate (d : ResourceData)
    : Remote (ResourceData * Diagnostics) :=
  let cm := {| Folder := formatFolderName (d_Get d "folder") |} in
  let domain := d_Get d "domain" in
  let cred :=
    {| ID := d_Get d "name";
       Scope := d_Get d "scope";
       Description := d_Get d "description";
       Username := d_Get d "username";
       PrivateKeySource :=
         Some {| Class := KeySourceDirectEntryType;
                 Value := d_Get d "privatekey" |};
       Passphrase := "" (* not in the literal: the zero value *) |} in
  let passphrase := d_Get d "passphrase" in
  let cred :=
    if (0 <? String.length passphrase)%nat
    then set_Passphrase passphrase cred else cred in
  let* err := cm_Update cm domain (d_Get d "name") cred in
  match err with
  | Some msg =>
      ret (d, diag_Errorf ("Could not update secret text: " +:+ msg))
  | None =>
      let d := d_SetId (generateCredentialID (d_Get d "folder") (ID cred)) d in
      resourceJenkinsCredentialSSHRead d
  end.

(** [resourceJenkinsCredentialSSHDelete] *)
Definition resourceJenkinsCredentialSSHDelete (d : ResourceData)
    : Remote (ResourceData * Diagnostics) :=
  let cm := {| Folder := formatFolderName (d_Get d "folder") |} in
  let* err := cm_Delete cm (d_Get d "domain") (d_Get d "name") in
  match err with
  | Some msg => ret (d, diag_FromErr (Some msg))
  | None => ret (d, [])
  end.

(** The message of the error Import returns for a malformed identifier. *)
Definition import_format_error : string :=
  "import ID was improperly formatted. Imports need to be in the format "
  +:+ dquote +:+ "[<folder>/]<domain>/<name>" +:+ dquote.

(** [resourceJenkinsCredentialSSHImport]: the returned slice (it holds the
    pointer [d], so it shows the record as the function leaves it) and the
    error. The two indexings are guarded by the length test; [nth]'s default
    is never reached (lemma [Split_length_pos] and the guard). *)
Definition resourceJenkinsCredentialSSHImport (d : ResourceData)
    : list ResourceData * error :=
  let splitID := strings.Split (d_Id d) slash in
  if (length splitID <? 2)%nat then
    ([d], Some import_format_error)
  else
    let name := nth (length splitID - 1) splitID "" in
    let d := d_Set "name" name d in
    let domain := nth (length splitID - 2) splitID "" in
    let d := d_Set "domain" domain d in
    let folder :=
      strings.Trim (strings.Join (take (length splitID - 2) splitID) "/") "/" in
    let d := d_Set "folder" folder d in
    let d := d_SetId (generateCredentialID folder name) d in
    ([d], None).

End Resource.

Arguments resourceJenkinsCredentialSSHImport generateCredentialID d
  : simpl never.

(** The identifier Import takes, in the format its error message documents:
    ["[<folder>/]<domain>/<name>"], the folder segment left out when empty. *)
Definition importID (folder domain name : string) : string :=
  match folder with
  | EmptyString => domain +:+ "/" +:+ name
  | _ => folder +:+ "/" +:+ domain +:+ "/" +:+ name
  end.

(** The decomposition Import performs, read off the record it leaves:
    [(folder, domain, name)], or [None] when Import returns an error. *)
Definition parse (generateCredentialID : string -> string -> string)
    (id : string) : option (string * string * string) :=
  match resourceJenkinsCredentialSSHImport generateCredentialID
          {| rd_id := id; rd_attrs := ∅ |} with
  | ([d], None) => Some (d_Get d "folder", d_Get d "domain", d_Get d "name")
  | _ => None
  end.

(** Sample bodies for the two helpers declared outside this file, used only
    to run the handlers on concrete records. Every theorem is stated for
    arbitrary helpers; only the concrete runs that instantiate them use
    these. *)
Module Sample.

(** A helper that joins the two strings it is given, folder and name, with
    ["/"], leaving an empty folder out. The body of the package's own
    [generateCredentialID] is not in this file. *)
Definition generateCredentialID (folder name : string) : string :=
  match folder with
  | EmptyString => name
  | _ => folder +:+ "/" +:+ name
  end.

(** A folder name passed on unchanged. *)
Definition formatFolderName (folder : string) : string := folder.

End Sample.

(** The record Import leaves when it finds folder, domain and name. *)
Definition imported (generateCredentialID : string -> string -> string)
    (folder domain name : string) (d : ResourceData) : ResourceData :=
  d_SetId (generateCredentialID folder name)
    (d_Set "folder" folder (d_Set "domain" domain (d_Set "name" name d))).

(** ** The requests the handlers issue *)

Section Requests.

Variable formatFolderName : string -> string.

(** The folder-existence probe of Create. *)
Definition probe (d : ResourceData) : Call :=
  CallFolderExists (formatFolderName (d_Get d "folder")).

(** The lookup of Read. *)
Definition lookup (d : ResourceData) : Call :=
  CallGetSingle (formatFolderName (d_Get d "folder"))
    (d_Get d "domain") (d_Get d "name").

(** The struct literal Create and Update start from: no passphrase given. *)
Definition literal (d : ResourceData) : SSHCredentials :=
  {| ID := d_Get d "name";
     Scope := d_Get d "scope";
     Description := d_Get d "description";
     Username := d_Get d "username";
     PrivateKeySource :=
       Some {| Class := KeySourceDirectEntryType;
               Value := d_Get d "privatekey" |};
     Passphrase := "" |}.

(** The payload Create and Update send. *)
Definition payload (d : ResourceData) : SSHCredentials :=
  if (0 <? String.length (d_Get d "passphrase"))%nat
  then set_Passphrase (d_Get d "passphrase") (literal d) else literal d.

(** The write of Create. *)
Definition add (d : ResourceData) : Call :=
  CallAdd (formatFolderName (d_Get d "folder")) (d_Get d "domain") (payload d).

(** The write of Update. *)
Definition update (d : ResourceData) : Call :=
  CallUpdate (formatFolderName (d_Get d "folder")) (d_Get d "domain")
    (d_Get d "name") (payload d).

End Requests.

(** The calls a run added to the log, and the writes among them. *)
Definition issued (before after : list Call) : list Call :=
  drop (length before) after.

Definition writes (calls : list Call) : list Call :=
  filter (fun c => is_write c = true) calls.

(** ** Concrete records and servers *)

(** A record as Create receives it. *)
Definition example_record : ResourceData :=
  {| rd_id := "";
     rd_attrs :=
       list_to_map
         [("name", "my-key"); ("domain", "_"); ("folder", "teamA");
          ("scope", "GLOBAL"); ("description", "Managed by Terraform");
          ("username", "git"); ("privatekey", "PRIVATE KEY");
          ("passphrase", "s3cret")] |}.

(** The object a healthy server returns from [GetSingle]: secrets come back
    as placeholders. *)
Definition remote_object : SSHCredentials :=
  {| ID := "my-key"; Scope := "SYSTEM"; Username := "git";
     Description := "edited on the server";
     PrivateKeySource := None; Passphrase := "{placeholder}" |}.

(** A server that answers by the kind of call alone. *)
Definition server (fails : Call -> error) : Jenkins :=
  {| jk_error := fun _ c => fails c; jk_object := fun _ _ => remote_object |}.

Definition healthy : Jenkins := server (fun _ => None).

(** The credential is gone: [GetSingle] fails with a 404. *)
Definition gone : Jenkins :=
  server (fun c =>
    match c with
    | CallGetSingle _ _ _ => Some "error 404"
    | _ => None
    end).

(** The server is broken: [GetSingle] fails with a 500. *)
Definition broken : Jenkins :=
  server (fun c =>
    match c with
    | CallGetSingle _ _ _ => Some "error 500"
    | _ => None
    end).

(** The folder does not exist. *)
Definition no_folder : Jenkins :=
  server (fun c =>
    match c with
    | CallFolderExists _ => Some "no such folder"
    | _ => None
    end).

(** The folder exists and the server refuses the write. *)
Definition read_only : Jenkins :=
  server (fun c =>
    match c with
    | CallAdd _ _ _ => Some "403"
    | _ => None
    end).

(** ** The schema of the resource *)

Module schema.

(** [schema.ValueType]: the resource uses [TypeString] only. *)
Inductive ValueType := TypeString.

(** [schema.Schema], the fields the resource sets. [Default] is [None] when
    the literal gives none; [ValidateDiagFunc] records whether a validator
    is attached (the validator itself is declared in another file). *)
Record Schema := mkSchema {
  Type_ : ValueType;
  Description : string;
  Required : bool;
  Optional : bool;
  ForceNew : bool;
  Default : option string;
  Sensitive : bool;
  ValidateDiagFunc : bool
}.

End schema.

(** The [Schema] map of [resourceJenkinsCredentialSSH()]; the handlers it
    registers are the five functions above. *)
Definition resourceJenkinsCredentialSSH : gmap string schema.Schema :=
  list_to_map
    [("name",
      {| schema.Type_ := schema.TypeString;
         schema.Description := "The identifier assigned to the credentials.";
         schema.Required := true; schema.Optional := false;
         schema.ForceNew := true; schema.Default := None;
         schema.Sensitive := false; schema.ValidateDiagFunc := false |});
     ("domain",
      {| schema.Type_ := schema.TypeString;
         schema.Description :=
           "The domain namespace that the credentials will be added to.";
         schema.Required := false; schema.Optional := true;
         schema.ForceNew := true; schema.Default := Some "_";
         schema.Sensitive := false; schema.ValidateDiagFunc := false |});
     ("folder",
      {| schema.Type_ := schema.TypeString;
         schema.Description :=
           "The folder namespace that the credentials will be added to.";
         schema.Required := false; schema.Optional := true;
         schema.ForceNew := true; schema.Default := None;
         schema.Sensitive := false; schema.ValidateDiagFunc := false |});
     ("scope",
      {| schema.Type_ := schema.TypeString;
         schema.Description := "The Jenkins scope assigned to the credentials.";
         schema.Required := false; schema.Optional := true;
         schema.ForceNew := false; schema.Default := Some "GLOBAL";
         schema.Sensitive := false; schema.ValidateDiagFunc := true |});
     ("description",
      {| schema.Type_ := schema.TypeString;
         schema.Description := "The credentials descriptive text.";
         schema.Required := false; schema.Optional := true;
         schema.ForceNew := false;
         schema.Default := Some "Managed by Terraform";
         schema.Sensitive := false; schema.ValidateDiagFunc := false |});
     ("username",
      {| schema.Type_ := schema.TypeString;
         schema.Description := "Username";
         schema.Required := true; schema.Optional := false;
         schema.ForceNew := false; schema.Default := None;
         schema.Sensitive := false; schema.ValidateDiagFunc := false |});
     ("privatekey",
      {| schema.Type_ := schema.TypeString;
         schema.Description :=
           "The credentials private SSH key. This is mandatory.";
         schema.Required := true; schema.Optional := false;
         schema.ForceNew := false; schema.Default := None;
         schema.Sensitive := true; schema.ValidateDiagFunc := false |});
     ("passphrase",
      {| schema.Type_ := schema.TypeString;
         schema.Description := "Passphrase for SSH key.";
         schema.Required := false; schema.Optional := true;
         schema.ForceNew := false; schema.Default := None;
         schema.Sensitive := true; schema.ValidateDiagFunc := false |})].

(** The attributes with a given flag set. *)
Definition flagged (flag : schema.Schema -> bool) (key : string) : Prop :=
  ∃ sch, resourceJenkinsCredentialSSH !! key = Some sch ∧ flag sch = true.

(** The credential a call addresses: folder, domain and name (for [Add], the
    ID of the payload); the folder probe addresses none. *)
Definition target (c : Call) : option (string * string * string) :=
  match c with
  | CallFolderExists _ => None
  | CallAdd folder domain cred => Some (folder, domain, ID cred)
  | CallGetSingle folder domain name
  | CallUpdate folder domain name _
  | CallDelete folder domain name => Some (folder, domain, name)
  end.

(** ** Shapes of strings *)

(** The first byte of [s] is ['/']. *)
Definition starts_with_slash (s : string) : bool :=
  match s with
  | EmptyString => false
  | String c _ => Ascii.eqb c slash
  end.

(** The last byte of [s] is ['/']. *)
Fixpoint ends_with_slash (s : string) : bool :=
  match s with
  | EmptyString => false
  | String c EmptyString => Ascii.eqb c slash
  | String _ s' => ends_with_slash s'
  end.

(** ** Facts about [strings] *)

Section StringFacts.

Lemma Split_nonempty s sep : strings.Split s sep ≠ [].
Proof.
  destruct s as [|c s]; simpl; [done|].
  destruct (Ascii.eqb c sep); [done|].
  by destruct (strings.Split s sep).
Qed.

Lemma Split_length_pos s sep : 1 ≤ length (strings.Split s sep).
Proof.
  pose proof (Split_nonempty s sep).
  destruct (strings.Split s sep); simpl; [done | lia].
Qed.

(** A string without the separator is a single segment. *)
Lemma Split_no_slash s : no_slash s = true → strings.Split s slash = [s].
Proof.
  induction s as [|c s IH]; simpl; [done|].
  intros [Hc Hs]%andb_prop. rewrite (IH Hs).
  by destruct (Ascii.eqb c slash).
Qed.

(** Splitting [s ++ sep ++ t] gives the segments of [s], then those of [t]. *)
Lemma Split_app s t sep :
  strings.Split (s +:+ String sep t) sep
  = strings.Split s sep ++ strings.Split t sep.
Proof.
  induction s as [|c s IH]; simpl.
  - by rewrite Ascii.eqb_refl.
  - rewrite IH. destruct (Ascii.eqb c sep); [done|].
    pose proof (Split_nonempty s sep).
    by destruct (strings.Split s sep).
Qed.

Lemma Join_cons_byte c w ws sep :
  strings.Join (String c w :: ws) sep = String c (strings.Join (w :: ws) sep).
Proof. by destruct ws. Qed.

(** [Join] undoes [Split]. *)
Lemma Join_Split s sep :
  strings.Join (strings.Split s sep) (String sep EmptyString) = s.
Proof.
  induction s as [|c s IH]; simpl; [done|].
  pose proof (Split_nonempty s sep) as Hne.
  destruct (Ascii.eqb_spec c sep) as [->|_].
  - destruct (strings.Split s sep) as [|w ws]; [done|].
    change (strings.Join (EmptyString :: w :: ws) (String sep EmptyString))
      with (String sep (strings.Join (w :: ws) (String sep EmptyString))).
    by rewrite IH.
  - destruct (strings.Split s sep) as [|w ws]; [done|].
    by rewrite Join_cons_byte, IH.
Qed.

Lemma TrimRight_no_slash s : no_slash s = true → strings.TrimRight s "/" = s.
Proof.
  induction s as [|c s IH]; simpl; [done|].
  intros [Hc Hs]%andb_prop. rewrite (IH Hs).
  destruct s; [|done].
  fold slash. apply negb_true_iff in Hc. by rewrite orb_false_r, Hc.
Qed.

(** Trimming ['/'] leaves a string without ['/'] as it is. *)
Lemma Trim_no_slash s : no_slash s = true → strings.Trim s "/" = s.
Proof.
  intros Hs. unfold strings.Trim.
  assert (strings.TrimLeft s "/" = s) as ->; [|by apply TrimRight_no_slash].
  destruct s as [|c s]; simpl in *; [done|].
  apply andb_prop in Hs as [Hc _]. apply negb_true_iff in Hc.
  fold slash. by rewrite orb_false_r, Hc.
Qed.

(** The last two elements of a list and what precedes them. *)
Lemma last_two (l : list string) a b :
  let l' := l ++ [a; b] in
  (length l' <? 2)%nat = false
  ∧ nth (length l' - 1) l' EmptyString = b
  ∧ nth (length l' - 2) l' EmptyString = a
  ∧ take (length l' - 2) l' = l.
Proof.
  simpl. rewrite length_app. simpl.
  replace (length l + 2 - 1) with (length l + 1) by lia.
  replace (length l + 2 - 2) with (length l + 0) by lia.
  repeat split.
  - apply Nat.ltb_ge. lia.
  - by rewrite app_nth2_plus.
  - by rewrite app_nth2_plus.
  - rewrite Nat.add_0_r. by rewrite take_app_length.
Qed.

End StringFacts.

(** ** Import *)

Section ImportFacts.

Variable generateCredentialID : string -> string -> string.

Local Abbreviation Import :=
  (resourceJenkinsCredentialSSHImport generateCredentialID).

Lemma imported_fields folder domain name d :
  d_Get (imported generateCredentialID folder domain name d) "folder" = folder
  ∧ d_Get (imported generateCredentialID folder domain name d) "domain"
    = domain
  ∧ d_Get (imported generateCredentialID folder domain name d) "name" = name
  ∧ d_Id (imported generateCredentialID folder domain name d)
    = generateCredentialID folder name.
Proof.
  unfold imported, d_Get, d_Set, d_SetId, d_Id; simpl.
  by repeat split; simplify_map_eq.
Qed.

(** Import of an identifier with fewer than two segments. *)
Lemma Import_short d :
  length (strings.Split (d_Id d) slash) < 2 →
  Import d = ([d], Some import_format_error).
Proof.
  intros Hlen. unfold resourceJenkinsCredentialSSHImport.
  by apply Nat.ltb_lt in Hlen as ->.
Qed.

(** Import of an identifier whose segments are [segs], then [domain], then
    [name]. *)
Lemma Import_segments d segs domain name :
  strings.Split (d_Id d) slash = segs ++ [domain; name] →
  Import d
  = ([imported generateCredentialID
        (strings.Trim (strings.Join segs "/") "/") domain name d],
     None).
Proof.
  intros Hsplit. unfold resourceJenkinsCredentialSSHImport. rewrite Hsplit.
  destruct (last_two segs domain name) as (-> & -> & -> & ->).
  done.
Qed.

(** A list of at least two elements ends in two elements. *)
Lemma split_last_two (l : list string) :
  2 ≤ length l → ∃ segs a b, l = segs ++ [a; b].
Proof.
  intros Hlen.
  destruct (decide (l = [])) as [->|Hne]; [simpl in Hlen; lia|].
  apply exists_last in Hne as (l1 & b & ->).
  destruct (decide (l1 = [])) as [->|Hne1]; [simpl in Hlen; lia|].
  apply exists_last in Hne1 as (segs & a & ->).
  exists segs, a, b. by rewrite <- app_assoc.
Qed.

(** Import of the documented format gives back the three fields, for a
    folder that trimming leaves alone and a domain and name without ['/']. *)
Lemma Import_importID d folder domain name :
  strings.Trim folder "/" = folder →
  no_slash domain = true → no_slash name = true →
  d_Id d = importID folder domain name →
  Import d = ([imported generateCredentialID folder domain name d], None).
Proof.
  intros Hfolder Hdomain Hname Hid.
  assert (strings.Split (d_Id d) slash
          = match folder with
            | EmptyString => []
            | _ => strings.Split folder slash
            end ++ [domain; name]) as Hsplit.
  { rewrite Hid. unfold importID. destruct folder as [|c folder].
    - change ("/" +:+ name) with (String slash name).
      by rewrite Split_app, !Split_no_slash.
    - change ("/" +:+ domain +:+ "/" +:+ name)
        with (String slash (domain +:+ String slash name)).
      by rewrite !Split_app, !(Split_no_slash domain), !(Split_no_slash name). }
  rewrite (Import_segments _ _ _ _ Hsplit). do 3 f_equal.
  destruct folder as [|c folder]; [done|].
  change "/" with (String slash EmptyString). rewrite Join_Split.
  exact Hfolder.
Qed.

End ImportFacts.

(** ** Read, Create and Update against an arbitrary server *)

Section HandlerFacts.

Variable formatFolderName : string -> string.
Variable generateCredentialID : string -> string -> string.
Variable J : Jenkins.

Local Abbreviation Read :=
  (resourceJenkinsCredentialSSHRead formatFolderName generateCredentialID J).
Local Abbreviation Create :=
  (resourceJenkinsCredentialSSHCreate formatFolderName generateCredentialID J).
Local Abbreviation Update :=
  (resourceJenkinsCredentialSSHUpdate formatFolderName generateCredentialID J).

(** Assigning the passphrase leaves the payload's identity alone. *)
Lemma payload_ID d : ID (payload d) = d_Get d "name".
Proof. unfold payload. by destruct (0 <? _)%nat. Qed.

(** Read issues the lookup and nothing else; what it returns follows the
    three cases of the source. *)
Lemma Read_run d log :
  Read d log
  = (match jk_error J log (lookup formatFolderName d) with
     | Some msg =>
         if strings.HasSuffix msg "404" then (d_SetId "" d, [])
         else (d, diag_Errorf ("Could not read ssh credentials: " +:+ msg))
     | None =>
         let cred := jk_object J log (lookup formatFolderName d) in
         (d_Set "description" (Description cred)
            (d_Set "scope" (Scope cred)
               (d_SetId (generateCredentialID (d_Get d "folder") (ID cred)) d)),
          [])
     end,
     log ++ [lookup formatFolderName d]).
Proof.
  unfold resourceJenkinsCredentialSSHRead, bind, cm_GetSingle, ret, lookup.
  simpl.
  destruct (jk_error J log _) as [msg|]; [|done].
  by destruct (strings.HasSuffix msg "404").
Qed.

(** Read never touches an attribute other than scope and description. *)
Lemma Read_frame d log key :
  key ≠ "scope" → key ≠ "description" →
  rd_attrs (Read d log).1.1 !! key = rd_attrs d !! key.
Proof.
  intros Hscope Hdescr. rewrite Read_run; simpl.
  destruct (jk_error J log _) as [msg|]; simpl.
  - by destruct (strings.HasSuffix msg "404").
  - by rewrite !lookup_insert_ne.
Qed.

Lemma Create_probe_fails d log msg :
  jk_error J log (probe formatFolderName d) = Some msg →
  Create d log
  = ((d, [ {| diag_severity := Error;
              diag_summary :=
                "invalid folder name '" +:+ formatFolderName (d_Get d "folder")
                +:+ "' specified: " +:+ msg |} ]),
     log ++ [probe formatFolderName d]).
Proof.
  intros Hprobe.
  unfold resourceJenkinsCredentialSSHCreate, bind, folderExists, request, ret.
  simpl. fold (probe formatFolderName d). by rewrite Hprobe.
Qed.

Lemma Create_add_fails d log msg :
  jk_error J log (probe formatFolderName d) = None →
  jk_error J (log ++ [probe formatFolderName d]) (add formatFolderName d)
  = Some msg →
  Create d log
  = ((d, diag_Errorf ("Could not create ssh credentials: " +:+ msg)),
     log ++ [probe formatFolderName d; add formatFolderName d]).
Proof.
  intros Hprobe Hadd.
  unfold resourceJenkinsCredentialSSHCreate, bind, folderExists, cm_Add,
    request, ret.
  simpl. fold (probe formatFolderName d). rewrite Hprobe.
  fold (literal d). fold (payload d). fold (add formatFolderName d).
  rewrite Hadd. by rewrite <- app_assoc.
Qed.

Lemma Create_add_succeeds d log :
  jk_error J log (probe formatFolderName d) = None →
  jk_error J (log ++ [probe formatFolderName d]) (add formatFolderName d)
  = None →
  Create d log
  = Read (d_SetId (generateCredentialID (d_Get d "folder") (d_Get d "name")) d)
      (log ++ [probe formatFolderName d; add formatFolderName d]).
Proof.
  intros Hprobe Hadd.
  unfold resourceJenkinsCredentialSSHCreate, bind, folderExists, cm_Add,
    request, ret.
  simpl. fold (probe formatFolderName d). rewrite Hprobe.
  fold (literal d). fold (payload d). fold (add formatFolderName d).
  rewrite Hadd. rewrite <- app_assoc. simpl.
  by rewrite payload_ID.
Qed.

Lemma Update_fails d log msg :
  jk_error J log (update formatFolderName d) = Some msg →
  Update d log
  = ((d, diag_Errorf ("Could not update secret text: " +:+ msg)),
     log ++ [update formatFolderName d]).
Proof.
  intros Hupd.
  unfold resourceJenkinsCredentialSSHUpdate, bind, cm_Update, request, ret.
  simpl. fold (literal d). fold (payload d). fold (update formatFolderName d).
  by rewrite Hupd.
Qed.

Lemma Update_succeeds d log :
  jk_error J log (update formatFolderName d) = None →
  Update d log
  = Read (d_SetId (generateCredentialID (d_Get d "folder") (d_Get d "name")) d)
      (log ++ [update formatFolderName d]).
Proof.
  intros Hupd.
  unfold resourceJenkinsCredentialSSHUpdate, bind, cm_Update, request, ret.
  simpl. fold (literal d). fold (payload d). fold (update formatFolderName d).
  rewrite Hupd. by rewrite payload_ID.
Qed.

(** A run of Read only appends to the log. *)
Lemma Read_log d log : (Read d log).2 = log ++ [lookup formatFolderName d].
Proof. by rewrite Read_run. Qed.

End HandlerFacts.

(** ** The properties of the specification *)

(** C1, as stated, fails: the identifier Create and Update compose is
    [generateCredentialID folder name], which does not depend on the domain,
    so no implementation of that helper lets Import recover the domain from
    it for every triple. *)
Lemma compose_then_parse_loses_domain :
  ¬ ∃ generateCredentialID : string → string → string,
      ∀ folder domain name,
        no_slash folder = true →
        parse generateCredentialID (generateCredentialID folder name)
        = Some (folder, domain, name).
Proof.
  intros [g Hg].
  pose proof (Hg "teamA" "_" "my-key" eq_refl) as H1.
  pose proof (Hg "teamA" "other" "my-key" eq_refl) as H2.
  rewrite H1 in H2. discriminate H2.
Qed.

(** C1, amended: for every triple whose folder, domain and name contain no
    ['/'], Import of the identifier in the documented format
    ["[<folder>/]<domain>/<name>"] gives back the triple, and the identifier
    it leaves on the record is the one Create composes from folder and
    name. *)
Theorem import_format_roundtrip generateCredentialID folder domain name :
  no_slash folder = true → no_slash domain = true → no_slash name = true →
  parse generateCredentialID (importID folder domain name)
  = Some (folder, domain, name)
  ∧ ∀ d, d_Id d = importID folder domain name →
      ∃ d', resourceJenkinsCredentialSSHImport generateCredentialID d
            = ([d'], None)
            ∧ d_Id d' = generateCredentialID folder name.
Proof.
  intros Hfolder Hdomain Hname.
  pose proof (Trim_no_slash folder Hfolder) as Htrim.
  split.
  - unfold parse.
    rewrite (Import_importID generateCredentialID _ folder domain name)
      by done.
    destruct (imported_fields generateCredentialID folder domain name
                {| rd_id := importID folder domain name; rd_attrs := ∅ |})
      as (Hf & Hd & Hn & _).
    by rewrite Hf, Hd, Hn.
  - intros d Hid. eexists. split.
    + by apply (Import_importID _ _ folder domain name).
    + apply imported_fields.
Qed.

Lemma import_format_roundtrip_witness :
  parse Sample.generateCredentialID "teamA/_/my-key"
  = Some ("teamA", "_", "my-key").
Proof.
  exact (proj1 (import_format_roundtrip Sample.generateCredentialID
                  "teamA" "_" "my-key" eq_refl eq_refl eq_refl)).
Defined.

(** Import of ["teamA/_/my-key"] sets folder to ["teamA"], domain to ["_"]
    and name to ["my-key"]. The identifier it sets is whatever the helper
    composes from ["teamA"] and ["my-key"]: which string that is, the body
    of [generateCredentialID] decides, and that body is not in this file. *)
Lemma import_teamA generateCredentialID attrs :
  ∃ d', resourceJenkinsCredentialSSHImport generateCredentialID
          {| rd_id := "teamA/_/my-key"; rd_attrs := attrs |}
        = ([d'], None)
        ∧ d_Get d' "folder" = "teamA"
        ∧ d_Get d' "domain" = "_"
        ∧ d_Get d' "name" = "my-key"
        ∧ d_Id d' = generateCredentialID "teamA" "my-key".
Proof.
  eexists. split.
  - by apply (Import_importID _ _ "teamA" "_" "my-key").
  - apply imported_fields.
Qed.

(** C7: Import of the two-segment ["_/my-key"] sets folder to the empty
    string, domain to ["_"] and name to ["my-key"]. *)
Theorem import_two_segments generateCredentialID attrs :
  ∃ d', resourceJenkinsCredentialSSHImport generateCredentialID
          {| rd_id := "_/my-key"; rd_attrs := attrs |}
        = ([d'], None)
        ∧ d_Get d' "folder" = ""
        ∧ d_Get d' "domain" = "_"
        ∧ d_Get d' "name" = "my-key".
Proof.
  eexists. split.
  - by apply (Import_importID _ _ "" "_" "my-key").
  - pose proof (imported_fields generateCredentialID "" "_" "my-key") as H.
    intuition apply H.
Qed.

(** C8: Import of an identifier without ['/'] fails with the error that
    describes the format ["[<folder>/]<domain>/<name>"], and leaves the
    record as it was. *)
Theorem import_single_segment generateCredentialID d :
  no_slash (d_Id d) = true →
  resourceJenkinsCredentialSSHImport generateCredentialID d
  = ([d], Some import_format_error)
  ∧ import_format_error
    = "import ID was improperly formatted. Imports need to be in the format "
      +:+ dquote +:+ "[<folder>/]<domain>/<name>" +:+ dquote.
Proof.
  intros Hid. split; [|done].
  apply Import_short. rewrite (Split_no_slash _ Hid). simpl. lia.
Qed.

Lemma import_single_segment_witness :
  resourceJenkinsCredentialSSHImport Sample.generateCredentialID
    {| rd_id := "my-key"; rd_attrs := ∅ |}
  = ([ {| rd_id := "my-key"; rd_attrs := ∅ |} ], Some import_format_error).
Proof.
  exact (proj1 (import_single_segment Sample.generateCredentialID
                  {| rd_id := "my-key"; rd_attrs := ∅ |} eq_refl)).
Defined.

(** C10: Import of an identifier with at least two segments returns no
    error, whatever the segments hold: the last is the name, the one before
    the domain, the rest the folder. *)
Theorem import_never_validates generateCredentialID d :
  2 ≤ length (strings.Split (d_Id d) slash) →
  ∃ segs domain name,
    strings.Split (d_Id d) slash = segs ++ [domain; name]
    ∧ resourceJenkinsCredentialSSHImport generateCredentialID d
      = ([imported generateCredentialID
            (strings.Trim (strings.Join segs "/") "/") domain name d],
         None).
Proof.
  intros Hlen. destruct (split_last_two _ Hlen) as (segs & domain & name & Hs).
  exists segs, domain, name. split; [done|].
  by apply Import_segments.
Qed.

(** C10 at ["//"]: three empty segments give an empty name, domain and
    folder, and no error. *)
Lemma import_never_validates_witness :
  ∃ d', resourceJenkinsCredentialSSHImport Sample.generateCredentialID
          {| rd_id := "//"; rd_attrs := ∅ |}
        = ([d'], None)
        ∧ d_Get d' "name" = "" ∧ d_Get d' "domain" = ""
        ∧ d_Get d' "folder" = "".
Proof.
  destruct (import_never_validates Sample.generateCredentialID
              {| rd_id := "//"; rd_attrs := ∅ |})
    as (segs & domain & name & Hsplit & Himport).
  - simpl. lia.
  - eexists. split; [exact Himport|].
    change (strings.Split (d_Id {| rd_id := "//"; rd_attrs := ∅ |}) slash)
      with ([""] ++ ["" ; ""]) in Hsplit.
    apply app_inj_2 in Hsplit as [<- [= <- <-]]; [|done].
    pose proof (imported_fields Sample.generateCredentialID
                  (strings.Trim (strings.Join [""] "/") "/") "" ""
                  {| rd_id := "//"; rd_attrs := ∅ |}) as H.
    intuition apply H.
Defined.

(** C3: when [GetSingle] returns an error, Read clears the identifier and
    returns no diagnostics if the message ends in ["404"], and returns an
    error diagnostic otherwise. *)
Theorem read_remote_error formatFolderName generateCredentialID J d log msg :
  jk_error J log (lookup formatFolderName d) = Some msg →
  let result :=
    (resourceJenkinsCredentialSSHRead formatFolderName generateCredentialID J
       d log).1 in
  (strings.HasSuffix msg "404" = true →
     d_Id result.1 = "" ∧ result.2 = [])
  ∧ (strings.HasSuffix msg "404" = false →
     HasError result.2 = true
     ∧ result.2 = diag_Errorf ("Could not read ssh credentials: " +:+ msg)).
Proof.
  intros Herr. rewrite Read_run, Herr. simpl.
  split; intros ->; by simpl.
Qed.

Lemma read_remote_error_witness :
  (let result :=
     (resourceJenkinsCredentialSSHRead Sample.formatFolderName
        Sample.generateCredentialID gone
        (d_SetId "teamA/my-key" example_record) []).1 in
   d_Id result.1 = "" ∧ result.2 = [])
  ∧ HasError
      (resourceJenkinsCredentialSSHRead Sample.formatFolderName
         Sample.generateCredentialID broken
         (d_SetId "teamA/my-key" example_record) []).1.2
    = true.
Proof.
  split.
  - exact (proj1 (read_remote_error Sample.formatFolderName
                    Sample.generateCredentialID gone
                    (d_SetId "teamA/my-key" example_record) [] "error 404"
                    eq_refl) eq_refl).
  - exact (proj1 (proj2 (read_remote_error Sample.formatFolderName
                    Sample.generateCredentialID broken
                    (d_SetId "teamA/my-key" example_record) [] "error 500"
                    eq_refl) eq_refl)).
Defined.

(** C9: when [GetSingle] returns an error whose message does not end in
    ["404"], Read leaves the record as it was: identifier and attributes. *)
Theorem read_fatal_error_keeps_record
    formatFolderName generateCredentialID J d log msg :
  jk_error J log (lookup formatFolderName d) = Some msg →
  strings.HasSuffix msg "404" = false →
  (resourceJenkinsCredentialSSHRead formatFolderName generateCredentialID J
     d log).1.1 = d.
Proof. intros Herr Hsuffix. by rewrite Read_run, Herr, Hsuffix. Qed.

Lemma read_fatal_error_keeps_record_witness :
  (resourceJenkinsCredentialSSHRead Sample.formatFolderName
     Sample.generateCredentialID broken
     (d_SetId "teamA/my-key" example_record) []).1.1
  = d_SetId "teamA/my-key" example_record.
Proof.
  exact (read_fatal_error_keeps_record Sample.formatFolderName
           Sample.generateCredentialID broken
           (d_SetId "teamA/my-key" example_record) [] "error 500"
           eq_refl eq_refl).
Defined.

(** C6: a Read whose lookup succeeds returns no diagnostics, takes scope and
    description from the remote object, and leaves every other attribute,
    privatekey and passphrase among them, as it was. *)
Theorem read_refreshes_scope_and_description
    formatFolderName generateCredentialID J d log :
  jk_error J log (lookup formatFolderName d) = None →
  let result :=
    (resourceJenkinsCredentialSSHRead formatFolderName generateCredentialID J
       d log).1 in
  let cred := jk_object J log (lookup formatFolderName d) in
  result.2 = []
  ∧ d_Get result.1 "scope" = Scope cred
  ∧ d_Get result.1 "description" = Description cred
  ∧ d_Get result.1 "privatekey" = d_Get d "privatekey"
  ∧ d_Get result.1 "passphrase" = d_Get d "passphrase"
  ∧ ∀ key, key ≠ "scope" → key ≠ "description" →
      rd_attrs result.1 !! key = rd_attrs d !! key.
Proof.
  intros Herr. simpl.
  assert (∀ key, key ≠ "scope" → key ≠ "description" →
            d_Get (resourceJenkinsCredentialSSHRead formatFolderName
                     generateCredentialID J d log).1.1 key = d_Get d key)
    as Hframe.
  { intros key H1 H2. unfold d_Get. by rewrite Read_frame. }
  repeat split.
  - by rewrite Read_run, Herr.
  - rewrite Read_run, Herr. unfold d_Get, d_Set; simpl. by simplify_map_eq.
  - rewrite Read_run, Herr. unfold d_Get, d_Set; simpl. by simplify_map_eq.
  - by apply Hframe.
  - by apply Hframe.
  - intros key H1 H2. by apply Read_frame.
Qed.

Lemma read_refreshes_scope_and_description_witness :
  let result :=
    (resourceJenkinsCredentialSSHRead Sample.formatFolderName
       Sample.generateCredentialID healthy example_record []).1 in
  d_Get result.1 "scope" = "SYSTEM"
  ∧ d_Get result.1 "description" = "edited on the server"
  ∧ d_Get result.1 "privatekey" = "PRIVATE KEY"
  ∧ d_Get result.1 "passphrase" = "s3cret".
Proof.
  pose proof (read_refreshes_scope_and_description Sample.formatFolderName
                Sample.generateCredentialID healthy example_record []
                eq_refl) as (_ & Hs & Hd & Hk & Hp & _).
  exact (conj Hs (conj Hd (conj Hk Hp))).
Defined.

(** C4: when the folder probe fails, Create returns the error naming the
    invalid folder, leaves the record alone and issues no write; when [Add]
    fails it returns an error and leaves the record, identifier included,
    alone; so an identifier that changed tells that [Add] succeeded. *)
Theorem create_failures formatFolderName generateCredentialID J d log :
  let run :=
    resourceJenkinsCredentialSSHCreate formatFolderName generateCredentialID
      J d log in
  (∀ msg,
     jk_error J log (probe formatFolderName d) = Some msg →
     run.1 = (d, diag_FromErr
                   (Some ("invalid folder name '"
                          +:+ formatFolderName (d_Get d "folder")
                          +:+ "' specified: " +:+ msg)))
     ∧ HasError run.1.2 = true
     ∧ writes (issued log run.2) = [])
  ∧ (∀ msg,
       jk_error J log (probe formatFolderName d) = None →
       jk_error J (log ++ [probe formatFolderName d]) (add formatFolderName d)
       = Some msg →
       run.1 = (d, diag_Errorf ("Could not create ssh credentials: " +:+ msg))
       ∧ HasError run.1.2 = true)
  ∧ (d_Id run.1.1 ≠ d_Id d →
       jk_error J log (probe formatFolderName d) = None
       ∧ jk_error J (log ++ [probe formatFolderName d])
           (add formatFolderName d) = None).
Proof.
  simpl. split; [|split].
  - intros msg Hprobe. rewrite (Create_probe_fails _ _ _ _ _ _ Hprobe).
    simpl. repeat split. unfold issued. by rewrite drop_app_length.
  - intros msg Hprobe Hadd.
    by rewrite (Create_add_fails _ _ _ _ _ _ Hprobe Hadd).
  - intros Hid.
    destruct (jk_error J log (probe formatFolderName d)) as [msg|] eqn:Hprobe.
    { by rewrite (Create_probe_fails _ _ _ _ _ _ Hprobe) in Hid. }
    destruct (jk_error J (log ++ [probe formatFolderName d])
                (add formatFolderName d)) as [msg|] eqn:Hadd; [|done].
    by rewrite (Create_add_fails _ _ _ _ _ _ Hprobe Hadd) in Hid.
Qed.

Lemma create_failures_witness :
  (let run :=
     resourceJenkinsCredentialSSHCreate Sample.formatFolderName
       Sample.generateCredentialID no_folder example_record [] in
   HasError run.1.2 = true ∧ writes (issued [] run.2) = [])
  ∧ (let run :=
       resourceJenkinsCredentialSSHCreate Sample.formatFolderName
         Sample.generateCredentialID read_only example_record [] in
     run.1.1 = example_record ∧ HasError run.1.2 = true).
Proof.
  split.
  - pose proof (proj1 (create_failures Sample.formatFolderName
                  Sample.generateCredentialID no_folder example_record [])
                  "no such folder" eq_refl) as (_ & He & Hw).
    split; [exact He | exact Hw].
  - pose proof (proj1 (proj2 (create_failures Sample.formatFolderName
                  Sample.generateCredentialID read_only example_record []))
                  "403" eq_refl eq_refl) as (Hr & He).
    split; [exact (f_equal fst Hr) | exact He].
Defined.

(** C5: the payload of Create's [Add] and of Update's [Update] is
    [payload d]; it carries the record's passphrase when that is not empty,
    and is the struct literal, in which no passphrase was assigned, when it
    is empty. *)
Theorem passphrase_in_payload formatFolderName generateCredentialID J d log :
  (jk_error J log (probe formatFolderName d) = None →
   ∃ rest,
     (resourceJenkinsCredentialSSHCreate formatFolderName generateCredentialID
        J d log).2
     = log ++ probe formatFolderName d
           :: CallAdd (formatFolderName (d_Get d "folder")) (d_Get d "domain")
                (payload d)
           :: rest)
  ∧ (∃ rest,
       (resourceJenkinsCredentialSSHUpdate formatFolderName
          generateCredentialID J d log).2
       = log ++ CallUpdate (formatFolderName (d_Get d "folder"))
                  (d_Get d "domain") (d_Get d "name") (payload d)
                :: rest)
  ∧ (d_Get d "passphrase" ≠ "" →
       Passphrase (payload d) = d_Get d "passphrase")
  ∧ (d_Get d "passphrase" = "" →
       payload d = literal d ∧ Passphrase (literal d) = "").
Proof.
  split; [|split; [|split]].
  - intros Hprobe.
    destruct (jk_error J (log ++ [probe formatFolderName d])
                (add formatFolderName d)) as [msg|] eqn:Hadd.
    + exists []. by rewrite (Create_add_fails _ _ _ _ _ _ Hprobe Hadd).
    + eexists [_]. rewrite (Create_add_succeeds _ _ _ _ _ Hprobe Hadd).
      rewrite Read_log. by rewrite <- app_assoc.
  - destruct (jk_error J log (update formatFolderName d)) as [msg|] eqn:Hupd.
    + exists []. by rewrite (Update_fails _ _ _ _ _ _ Hupd).
    + eexists [_]. rewrite (Update_succeeds _ _ _ _ _ Hupd).
      rewrite Read_log. by rewrite <- app_assoc.
  - intros Hpass. unfold payload.
    destruct (d_Get d "passphrase"); [done|]. done.
  - intros Hpass. unfold payload. by rewrite Hpass.
Qed.

Lemma passphrase_in_payload_witness :
  (∃ rest,
     (resourceJenkinsCredentialSSHCreate Sample.formatFolderName
        Sample.generateCredentialID healthy example_record []).2
     = [] ++ probe Sample.formatFolderName example_record
          :: CallAdd "teamA" "_" (payload example_record) :: rest)
  ∧ Passphrase (payload example_record) = "s3cret"
  ∧ payload (d_Set "passphrase" "" example_record)
    = literal (d_Set "passphrase" "" example_record).
Proof.
  pose proof (passphrase_in_payload Sample.formatFolderName
                Sample.generateCredentialID healthy example_record [])
    as (Hcreate & _ & Hset & _).
  pose proof (passphrase_in_payload Sample.formatFolderName
                Sample.generateCredentialID healthy
                (d_Set "passphrase" "" example_record) [])
    as (_ & _ & _ & Hunset).
  split; [exact (Hcreate eq_refl)|].
  split; [apply Hset; discriminate | exact (proj1 (Hunset eq_refl))].
Defined.

(** X1: a folder path with inner ['/'] is imported whole: Import of
    [folder/domain/name] gives back the triple whenever the folder neither
    starts nor ends with ['/'] and domain and name contain none. *)
Theorem import_nested_folder generateCredentialID folder domain name :
  strings.Trim folder "/" = folder →
  no_slash domain = true → no_slash name = true →
  parse generateCredentialID (importID folder domain name)
  = Some (folder, domain, name).
Proof.
  intros Hfolder Hdomain Hname. unfold parse.
  rewrite (Import_importID generateCredentialID _ folder domain name)
    by done.
  destruct (imported_fields generateCredentialID folder domain name
              {| rd_id := importID folder domain name; rd_attrs := ∅ |})
    as (Hf & Hd & Hn & _).
  by rewrite Hf, Hd, Hn.
Qed.

Lemma import_nested_folder_witness :
  parse Sample.generateCredentialID "teamA/ops/_/my-key"
  = Some ("teamA/ops", "_", "my-key").
Proof.
  exact (import_nested_folder Sample.generateCredentialID
           "teamA/ops" "_" "my-key" eq_refl eq_refl eq_refl).
Defined.

(** X2: Delete issues one delete request, keyed by domain and name under the
    formatted folder, returns its error as it is, and leaves the record
    alone. *)
Theorem delete_surfaces_error formatFolderName J d log :
  let request :=
    CallDelete (formatFolderName (d_Get d "folder")) (d_Get d "domain")
      (d_Get d "name") in
  resourceJenkinsCredentialSSHDelete formatFolderName J d log
  = ((d, diag_FromErr (jk_error J log request)), log ++ [request]).
Proof.
  simpl.
  unfold resourceJenkinsCredentialSSHDelete, bind, cm_Delete, request, ret.
  simpl. by destruct (jk_error J log _).
Qed.

(** ** More facts about [strings] *)

Section MoreStringFacts.

(** Without a separator there is one segment; with one, at least two. *)
Lemma Split_has_slash s :
  no_slash s = false → 2 ≤ length (strings.Split s slash).
Proof.
  induction s as [|c s IH]; simpl; [done|].
  pose proof (Split_length_pos s slash) as Hpos.
  destruct (Ascii.eqb c slash); simpl.
  - intros _. lia.
  - intros Hs. specialize (IH Hs).
    destruct (strings.Split s slash); simpl in *; lia.
Qed.

(** No segment of a split holds the separator. *)
Lemma Split_segments_no_slash s :
  Forall (λ w, no_slash w = true) (strings.Split s slash).
Proof.
  induction s as [|c s IH]; simpl.
  - by constructor.
  - destruct (Ascii.eqb c slash) eqn:Hc.
    + by constructor.
    + destruct (strings.Split s slash) as [|w ws].
      { constructor; [simpl; by rewrite Hc | constructor]. }
      inversion IH as [|? ? Hw Hws]; subst.
      constructor; [|done]. simpl. by rewrite Hc, Hw.
Qed.

Lemma contains_slash c : strings.contains_byte "/" c = Ascii.eqb c slash.
Proof. simpl. by rewrite orb_false_r. Qed.

Lemma TrimLeft_start s : starts_with_slash (strings.TrimLeft s "/") = false.
Proof.
  induction s as [|c s IH]; [done|].
  cbn [strings.TrimLeft]. rewrite contains_slash.
  destruct (Ascii.eqb c slash) eqn:Hc; [done|]. simpl. by rewrite Hc.
Qed.

Lemma TrimRight_start s :
  starts_with_slash s = false →
  starts_with_slash (strings.TrimRight s "/") = false.
Proof.
  destruct s as [|c s]; [done|]. cbn [starts_with_slash strings.TrimRight].
  intros Hc. rewrite contains_slash, Hc.
  by destruct (strings.TrimRight s "/"); simpl.
Qed.

Lemma TrimRight_end s : ends_with_slash (strings.TrimRight s "/") = false.
Proof.
  induction s as [|c s IH]; [done|].
  cbn [strings.TrimRight]. rewrite contains_slash.
  destruct (strings.TrimRight s "/") as [|a t].
  - destruct (Ascii.eqb c slash) eqn:Hc; [done|]. simpl. by rewrite Hc.
  - exact IH.
Qed.

(** What trimming ['/'] returns neither starts nor ends with ['/']. *)
Lemma Trim_shape s :
  starts_with_slash (strings.Trim s "/") = false
  ∧ ends_with_slash (strings.Trim s "/") = false.
Proof.
  unfold strings.Trim. split.
  - apply TrimRight_start, TrimLeft_start.
  - apply TrimRight_end.
Qed.

Lemma TrimRight_fixed s :
  ends_with_slash s = false → strings.TrimRight s "/" = s.
Proof.
  induction s as [|c s IH]; [done|].
  cbn [strings.TrimRight]. rewrite contains_slash.
  destruct s as [|a t].
  - simpl. by intros ->.
  - intros Hend. by rewrite (IH Hend).
Qed.

(** Trimming leaves alone a string that neither starts nor ends with
    ['/']. *)
Lemma Trim_fixed s :
  starts_with_slash s = false → ends_with_slash s = false →
  strings.Trim s "/" = s.
Proof.
  intros Hstart Hend. unfold strings.Trim.
  assert (strings.TrimLeft s "/" = s) as ->; [|by apply TrimRight_fixed].
  destruct s as [|c s]; [done|].
  cbn [strings.TrimLeft]. rewrite contains_slash.
  simpl in Hstart. by rewrite Hstart.
Qed.

End MoreStringFacts.

(** ** More about Import *)

(** The two ways Import ends. *)
Lemma Import_cases generateCredentialID d :
  (no_slash (d_Id d) = true
   ∧ resourceJenkinsCredentialSSHImport generateCredentialID d
     = ([d], Some import_format_error))
  ∨ (no_slash (d_Id d) = false
     ∧ ∃ segs domain name,
         strings.Split (d_Id d) slash = segs ++ [domain; name]
         ∧ resourceJenkinsCredentialSSHImport generateCredentialID d
           = ([imported generateCredentialID
                 (strings.Trim (strings.Join segs "/") "/") domain name d],
              None)).
Proof.
  destruct (no_slash (d_Id d)) eqn:Hid; [left | right]; (split; [done|]).
  - apply Import_short. rewrite (Split_no_slash _ Hid). simpl. lia.
  - destruct (split_last_two _ (Split_has_slash _ Hid))
      as (segs & domain & name & Hsplit).
    exists segs, domain, name. split; [done|]. by apply Import_segments.
Qed.

(** The fields a successful Import leaves are in normal form. *)
Lemma Import_success_fields generateCredentialID d d' :
  resourceJenkinsCredentialSSHImport generateCredentialID d = ([d'], None) →
  d' = imported generateCredentialID (d_Get d' "folder") (d_Get d' "domain")
         (d_Get d' "name") d
  ∧ no_slash (d_Get d' "name") = true
  ∧ no_slash (d_Get d' "domain") = true
  ∧ starts_with_slash (d_Get d' "folder") = false
  ∧ ends_with_slash (d_Get d' "folder") = false.
Proof.
  intros Himport.
  destruct (Import_cases generateCredentialID d)
    as [[_ Herr] | (_ & segs & domain & name & Hsplit & Hok)].
  { rewrite Herr in Himport. discriminate Himport. }
  rewrite Hok in Himport. injection Himport as <-.
  destruct (imported_fields generateCredentialID
              (strings.Trim (strings.Join segs "/") "/") domain name d)
    as (Hf & Hd & Hn & _).
  rewrite Hf, Hd, Hn.
  pose proof (Split_segments_no_slash (d_Id d)) as Hall.
  rewrite Hsplit in Hall.
  apply Forall_app in Hall as [_ Hall].
  inversion Hall as [|? ? Hdomain Hall']; subst.
  inversion Hall' as [|? ? Hname _]; subst.
  destruct (Trim_shape (strings.Join segs "/")) as [Hstart Hend].
  done.
Qed.

(** X3: Import returns an error exactly when the identifier contains no
    ['/']. *)
Theorem import_fails_iff_no_slash generateCredentialID d :
  is_Some (resourceJenkinsCredentialSSHImport generateCredentialID d).2
  ↔ no_slash (d_Id d) = true.
Proof.
  destruct (Import_cases generateCredentialID d)
    as [[Hid ->] | (Hid & segs & domain & name & _ & ->)]; simpl.
  - split; [done | by eexists].
  - rewrite Hid. split; [by intros [? ?] | done].
Qed.

(** X4: after a successful Import the name and the domain contain no ['/']
    and the folder neither starts nor ends with ['/']. *)
Theorem import_fields_normalised generateCredentialID d d' :
  resourceJenkinsCredentialSSHImport generateCredentialID d = ([d'], None) →
  no_slash (d_Get d' "name") = true
  ∧ no_slash (d_Get d' "domain") = true
  ∧ starts_with_slash (d_Get d' "folder") = false
  ∧ ends_with_slash (d_Get d' "folder") = false.
Proof.
  intros Himport.
  by destruct (Import_success_fields _ _ _ Himport) as (_ & H).
Qed.

Lemma import_fields_normalised_witness :
  let d' :=
    imported Sample.generateCredentialID "teamA//ops" "_" "my-key"
      {| rd_id := "//teamA//ops//_/my-key"; rd_attrs := ∅ |} in
  no_slash (d_Get d' "name") = true
  ∧ no_slash (d_Get d' "domain") = true
  ∧ starts_with_slash (d_Get d' "folder") = false
  ∧ ends_with_slash (d_Get d' "folder") = false.
Proof.
  exact (import_fields_normalised Sample.generateCredentialID
           {| rd_id := "//teamA//ops//_/my-key"; rd_attrs := ∅ |} _ eq_refl).
Defined.

(** X5: the triple Import reads from an identifier is the triple it reads
    from that triple written back in the import format: parsing brings every
    accepted identifier to one canonical form. *)
Theorem import_canonical_form generateCredentialID id folder domain name :
  parse generateCredentialID id = Some (folder, domain, name) →
  parse generateCredentialID (importID folder domain name)
  = Some (folder, domain, name).
Proof.
  unfold parse at 1. intros Hparse.
  destruct (resourceJenkinsCredentialSSHImport generateCredentialID
              {| rd_id := id; rd_attrs := ∅ |})
    as [[|d' [|? ?]] [err|]] eqn:Himport; try discriminate Hparse.
  injection Hparse as <- <- <-.
  destruct (Import_success_fields _ _ _ Himport)
    as (_ & Hname & Hdomain & Hstart & Hend).
  unfold parse.
  rewrite (Import_importID generateCredentialID _ (d_Get d' "folder")
             (d_Get d' "domain") (d_Get d' "name"));
    [|by apply Trim_fixed|done..].
  destruct (imported_fields generateCredentialID (d_Get d' "folder")
              (d_Get d' "domain") (d_Get d' "name")
              {| rd_id := importID (d_Get d' "folder") (d_Get d' "domain")
                            (d_Get d' "name");
                 rd_attrs := ∅ |})
    as (Hf & Hd & Hn & _).
  by rewrite Hf, Hd, Hn.
Qed.

Lemma import_canonical_form_witness :
  parse Sample.generateCredentialID "//teamA//ops//_/my-key"
  = Some ("teamA//ops", "_", "my-key")
  ∧ parse Sample.generateCredentialID "teamA//ops/_/my-key"
    = Some ("teamA//ops", "_", "my-key").
Proof.
  split; [reflexivity|].
  exact (import_canonical_form Sample.generateCredentialID
           "//teamA//ops//_/my-key" "teamA//ops" "_" "my-key" eq_refl).
Defined.

(** X6: Import returns the one record it was given; whether it fails or
    not, every attribute other than name, domain and folder keeps its
    value, and a failed Import keeps the identifier too. *)
Theorem import_frame generateCredentialID d :
  ∃ d', (resourceJenkinsCredentialSSHImport generateCredentialID d).1 = [d']
    ∧ (∀ key, key ≠ "name" → key ≠ "domain" → key ≠ "folder" →
         rd_attrs d' !! key = rd_attrs d !! key)
    ∧ (is_Some (resourceJenkinsCredentialSSHImport generateCredentialID d).2 →
         d' = d).
Proof.
  destruct (Import_cases generateCredentialID d)
    as [[_ ->] | (_ & segs & domain & name & _ & ->)];
    eexists; (split; [reflexivity|]); split.
  - done.
  - done.
  - intros key Hn Hd Hf. unfold imported, d_Set, d_SetId; simpl.
    by rewrite !lookup_insert_ne.
  - by intros [? ?].
Qed.

(** ** Suffixes *)

Section SuffixFacts.

Lemma length_append (a b : string) :
  String.length (a +:+ b) = String.length a + String.length b.
Proof. induction a as [|c a IH]; simpl; [done | by rewrite IH]. Qed.

Lemma substring_whole s : String.substring 0 (String.length s) s = s.
Proof. induction s as [|c s IH]; simpl; [done | by rewrite IH]. Qed.

Lemma substring_after p s n :
  String.substring (String.length p) n (p +:+ s) = String.substring 0 n s.
Proof. induction p as [|c p IH]; simpl; [done | exact IH]. Qed.

(** A string is its first [n] bytes followed by the rest. *)
Lemma substring_cut s n :
  n ≤ String.length s →
  s = String.substring 0 n s
      +:+ String.substring n (String.length s - n) s.
Proof.
  revert n. induction s as [|c s IH]; intros [|n] Hn; simpl in *.
  - done.
  - lia.
  - by rewrite substring_whole.
  - change (String c s
            = String c (String.substring 0 n s
                        +:+ String.substring n (String.length s - n) s)).
    f_equal. apply IH. lia.
Qed.

(** [HasSuffix s suffix] holds exactly when [s] is some prefix followed by
    [suffix]. *)
Lemma HasSuffix_spec s suffix :
  strings.HasSuffix s suffix = true ↔ ∃ prefix, s = prefix +:+ suffix.
Proof.
  unfold strings.HasSuffix. split.
  - intros [Hlen Heq]%andb_prop.
    apply Nat.leb_le in Hlen. apply String.eqb_eq in Heq.
    exists (String.substring 0 (String.length s - String.length suffix) s).
    pose proof (substring_cut s (String.length s - String.length suffix))
      as Hcut.
    replace (String.length s - (String.length s - String.length suffix))
      with (String.length suffix) in Hcut by lia.
    rewrite Heq in Hcut. apply Hcut. lia.
  - intros [prefix ->]. rewrite length_append.
    apply andb_true_intro. split; [apply Nat.leb_le; lia|].
    replace (String.length prefix + String.length suffix
             - String.length suffix) with (String.length prefix) by lia.
    rewrite substring_after, substring_whole. apply String.eqb_refl.
Qed.

End SuffixFacts.

(** ** More about Read *)

(** X7: given that the lookup fails, Read reports the credential as gone
    (identifier cleared, no diagnostics) exactly when the error message is
    some text followed by ["404"]. *)
Theorem read_gone_iff_404_suffix
    formatFolderName generateCredentialID J d log msg :
  jk_error J log (lookup formatFolderName d) = Some msg →
  (∃ prefix, msg = prefix +:+ "404")
  ↔ (resourceJenkinsCredentialSSHRead formatFolderName generateCredentialID J
       d log).1 = (d_SetId "" d, []).
Proof.
  intros Herr. rewrite <- HasSuffix_spec, Read_run, Herr. simpl.
  by destruct (strings.HasSuffix msg "404").
Qed.

Lemma read_gone_iff_404_suffix_witness :
  (resourceJenkinsCredentialSSHRead Sample.formatFolderName
     Sample.generateCredentialID
     (server (λ _, Some "connection to port 8404"))
     (d_SetId "teamA/my-key" example_record) []).1
  = (d_SetId "" (d_SetId "teamA/my-key" example_record), []).
Proof.
  apply (read_gone_iff_404_suffix Sample.formatFolderName
           Sample.generateCredentialID
           (server (λ _, Some "connection to port 8404"))
           (d_SetId "teamA/my-key" example_record) []
           "connection to port 8404" eq_refl).
  by exists "connection to port 8".
Defined.

(** Read leaves alone the three attributes that address the credential. *)
Lemma Read_lookup formatFolderName generateCredentialID J d log :
  lookup formatFolderName
    (resourceJenkinsCredentialSSHRead formatFolderName generateCredentialID J
       d log).1.1
  = lookup formatFolderName d.
Proof.
  unfold lookup, d_Get. by rewrite !Read_frame.
Qed.

(** Setting scope and description twice to the same values is setting them
    once. *)
Lemma refresh_twice id scope description d :
  d_Set "description" description
    (d_Set "scope" scope
       (d_SetId id
          (d_Set "description" description
             (d_Set "scope" scope (d_SetId id d)))))
  = d_Set "description" description (d_Set "scope" scope (d_SetId id d)).
Proof.
  unfold d_Set, d_SetId; simpl. f_equal.
  apply map_eq. intros key.
  destruct (decide (key = "description")) as [->|Hd];
    [by rewrite !lookup_insert_eq|].
  destruct (decide (key = "scope")) as [->|Hs]; by simplify_map_eq.
Qed.

(** X8: Read is idempotent against a server that answers the lookup the
    second time as it did the first: reading the record Read returned gives
    that record again, with the same diagnostics. *)
Theorem read_idempotent formatFolderName generateCredentialID J d log :
  let first :=
    resourceJenkinsCredentialSSHRead formatFolderName generateCredentialID J
      d log in
  jk_error J first.2 (lookup formatFolderName d)
  = jk_error J log (lookup formatFolderName d) →
  jk_object J first.2 (lookup formatFolderName d)
  = jk_object J log (lookup formatFolderName d) →
  (resourceJenkinsCredentialSSHRead formatFolderName generateCredentialID J
     first.1.1 first.2).1
  = first.1.
Proof.
  simpl. intros Herr Hobj.
  rewrite (Read_run _ _ _ _ (_.2)), Read_lookup, Herr, Hobj.
  rewrite (Read_run _ _ _ d log). simpl.
  destruct (jk_error J log (lookup formatFolderName d)) as [msg|] eqn:Hfirst.
  - by destruct (strings.HasSuffix msg "404").
  - assert (∀ i v w,
              d_Get (d_Set "description" v (d_Set "scope" w (d_SetId i d)))
                "folder" = d_Get d "folder") as Hfolder.
    { intros. unfold d_Get, d_Set; simpl. by simplify_map_eq. }
    simpl. rewrite Hfolder. f_equal. apply refresh_twice.
Qed.

Lemma read_idempotent_witness :
  let first :=
    resourceJenkinsCredentialSSHRead Sample.formatFolderName
      Sample.generateCredentialID healthy example_record [] in
  (resourceJenkinsCredentialSSHRead Sample.formatFolderName
     Sample.generateCredentialID healthy first.1.1 first.2).1
  = first.1.
Proof.
  exact (read_idempotent Sample.formatFolderName
           Sample.generateCredentialID healthy example_record []
           eq_refl eq_refl).
Defined.

(** X9: the lifecycle handlers never read the identifier: run on a record
    with another identifier, Read, Create, Update and Delete issue the same
    calls, return the same diagnostics and leave the same attributes. *)
Theorem handlers_never_read_identifier
    formatFolderName generateCredentialID J d log id :
  let same (run run' : ResourceData * Diagnostics * list Call) :=
    run'.2 = run.2 ∧ run'.1.2 = run.1.2
    ∧ rd_attrs run'.1.1 = rd_attrs run.1.1 in
  same (resourceJenkinsCredentialSSHRead formatFolderName
          generateCredentialID J d log)
       (resourceJenkinsCredentialSSHRead formatFolderName
          generateCredentialID J (d_SetId id d) log)
  ∧ same (resourceJenkinsCredentialSSHCreate formatFolderName
            generateCredentialID J d log)
         (resourceJenkinsCredentialSSHCreate formatFolderName
            generateCredentialID J (d_SetId id d) log)
  ∧ same (resourceJenkinsCredentialSSHUpdate formatFolderName
            generateCredentialID J d log)
         (resourceJenkinsCredentialSSHUpdate formatFolderName
            generateCredentialID J (d_SetId id d) log)
  ∧ same (resourceJenkinsCredentialSSHDelete formatFolderName J d log)
         (resourceJenkinsCredentialSSHDelete formatFolderName J
            (d_SetId id d) log).
Proof.
  assert (∀ v d0 log0,
    let run := resourceJenkinsCredentialSSHRead formatFolderName
                 generateCredentialID J d0 log0 in
    let run' := resourceJenkinsCredentialSSHRead formatFolderName
                  generateCredentialID J (d_SetId v d0) log0 in
    run'.2 = run.2 ∧ run'.1.2 = run.1.2
    ∧ rd_attrs run'.1.1 = rd_attrs run.1.1) as Hread.
  { intros v d0 log0. simpl. rewrite !Read_run.
    change (lookup formatFolderName (d_SetId v d0))
      with (lookup formatFolderName d0).
    destruct (jk_error J log0 _) as [msg|]; [|done].
    by destruct (strings.HasSuffix msg "404"). }
  simpl. split; [apply Hread|]. split; [|split].
  - destruct (jk_error J log (probe formatFolderName d)) as [msg|] eqn:Hprobe.
    { rewrite (Create_probe_fails _ _ _ d _ _ Hprobe).
      by rewrite (Create_probe_fails _ _ _ (d_SetId id d) _ _ Hprobe). }
    destruct (jk_error J (log ++ [probe formatFolderName d])
                (add formatFolderName d)) as [msg|] eqn:Hadd.
    { rewrite (Create_add_fails _ _ _ d _ _ Hprobe Hadd).
      by rewrite (Create_add_fails _ _ _ (d_SetId id d) _ _ Hprobe Hadd). }
    rewrite (Create_add_succeeds _ _ _ d _ Hprobe Hadd).
    by rewrite (Create_add_succeeds _ _ _ (d_SetId id d) _ Hprobe Hadd).
  - destruct (jk_error J log (update formatFolderName d)) as [msg|] eqn:Hupd.
    { rewrite (Update_fails _ _ _ d _ _ Hupd).
      by rewrite (Update_fails _ _ _ (d_SetId id d) _ _ Hupd). }
    rewrite (Update_succeeds _ _ _ d _ Hupd).
    by rewrite (Update_succeeds _ _ _ (d_SetId id d) _ Hupd).
  - unfold resourceJenkinsCredentialSSHDelete, bind, cm_Delete, request, ret.
    simpl. change (d_Get (d_SetId id d)) with (d_Get d).
    by destruct (jk_error J log _).
Qed.

(** ** More about Create and Update *)

(** X10: the calls of Create, in order: the probe; the [Add] only after a
    probe without error; the read-back lookup only after an [Add] without
    error. Create never issues an update or a delete, and at most one
    write. *)
Theorem create_call_sequence formatFolderName generateCredentialID J d log :
  issued log
    (resourceJenkinsCredentialSSHCreate formatFolderName generateCredentialID
       J d log).2
  = match jk_error J log (probe formatFolderName d) with
    | Some _ => [probe formatFolderName d]
    | None =>
        match jk_error J (log ++ [probe formatFolderName d])
                (add formatFolderName d) with
        | Some _ => [probe formatFolderName d; add formatFolderName d]
        | None =>
            [probe formatFolderName d; add formatFolderName d;
             lookup formatFolderName d]
        end
    end.
Proof.
  unfold issued.
  destruct (jk_error J log (probe formatFolderName d)) as [msg|] eqn:Hprobe.
  { rewrite (Create_probe_fails _ _ _ _ _ _ Hprobe). simpl.
    by rewrite drop_app_length. }
  destruct (jk_error J (log ++ [probe formatFolderName d])
              (add formatFolderName d)) as [msg|] eqn:Hadd.
  { rewrite (Create_add_fails _ _ _ _ _ _ Hprobe Hadd). simpl.
    by rewrite drop_app_length. }
  rewrite (Create_add_succeeds _ _ _ _ _ Hprobe Hadd), Read_log.
  rewrite <- app_assoc. by rewrite drop_app_length.
Qed.

(** X11: what Create returns once [Add] has succeeded is what the read-back
    finds. A read-back error ending in ["404"] makes Create return no error
    with the identifier empty; any other read-back error is returned, with
    the identifier already assigned; a read-back without error leaves the
    identifier composed from the folder and the remote object's ID, and no
    diagnostics. *)
Theorem create_readback formatFolderName generateCredentialID J d log :
  let log' := log ++ [probe formatFolderName d; add formatFolderName d] in
  let result :=
    (resourceJenkinsCredentialSSHCreate formatFolderName generateCredentialID
       J d log).1 in
  jk_error J log (probe formatFolderName d) = None →
  jk_error J (log ++ [probe formatFolderName d]) (add formatFolderName d)
  = None →
  match jk_error J log' (lookup formatFolderName d) with
  | Some msg =>
      if strings.HasSuffix msg "404"
      then d_Id result.1 = "" ∧ result.2 = []
      else d_Id result.1
           = generateCredentialID (d_Get d "folder") (d_Get d "name")
           ∧ HasError result.2 = true
  | None =>
      d_Id result.1
      = generateCredentialID (d_Get d "folder")
          (ID (jk_object J log' (lookup formatFolderName d)))
      ∧ result.2 = []
  end.
Proof.
  simpl. intros Hprobe Hadd.
  rewrite (Create_add_succeeds _ _ _ _ _ Hprobe Hadd), Read_run.
  change (lookup formatFolderName (d_SetId _ d))
    with (lookup formatFolderName d).
  destruct (jk_error J _ (lookup formatFolderName d)) as [msg|]; [|done].
  by destruct (strings.HasSuffix msg "404").
Qed.

Lemma create_readback_witness :
  (let result :=
     (resourceJenkinsCredentialSSHCreate Sample.formatFolderName
        Sample.generateCredentialID gone example_record []).1 in
   d_Id result.1 = "" ∧ result.2 = [])
  ∧ (let result :=
       (resourceJenkinsCredentialSSHCreate Sample.formatFolderName
          Sample.generateCredentialID broken example_record []).1 in
     d_Id result.1 = "teamA/my-key" ∧ HasError result.2 = true)
  ∧ (let result :=
       (resourceJenkinsCredentialSSHCreate Sample.formatFolderName
          Sample.generateCredentialID healthy example_record []).1 in
     d_Id result.1 = "teamA/my-key" ∧ result.2 = []).
Proof.
  split; [|split].
  - exact (create_readback Sample.formatFolderName
             Sample.generateCredentialID gone example_record []
             eq_refl eq_refl).
  - exact (create_readback Sample.formatFolderName
             Sample.generateCredentialID broken example_record []
             eq_refl eq_refl).
  - exact (create_readback Sample.formatFolderName
             Sample.generateCredentialID healthy example_record []
             eq_refl eq_refl).
Defined.

(** X12: Update issues its write first and without any probe; when the write
    fails it returns the error, leaves the record as it was and does not
    read back; when it succeeds the only other call is the read-back
    lookup. *)
Theorem update_call_sequence formatFolderName generateCredentialID J d log :
  let run :=
    resourceJenkinsCredentialSSHUpdate formatFolderName generateCredentialID
      J d log in
  match jk_error J log (update formatFolderName d) with
  | Some msg =>
      issued log run.2 = [update formatFolderName d]
      ∧ run.1 = (d, diag_Errorf ("Could not update secret text: " +:+ msg))
  | None =>
      issued log run.2
      = [update formatFolderName d; lookup formatFolderName d]
  end.
Proof.
  simpl. unfold issued.
  destruct (jk_error J log (update formatFolderName d)) as [msg|] eqn:Hupd.
  - rewrite (Update_fails _ _ _ _ _ _ Hupd). simpl.
    by rewrite drop_app_length.
  - rewrite (Update_succeeds _ _ _ _ _ Hupd), Read_log.
    rewrite <- app_assoc. by rewrite drop_app_length.
Qed.

(** Create writes no attribute other than scope and description. *)
Lemma Create_frame formatFolderName generateCredentialID J d log key :
  key ≠ "scope" → key ≠ "description" →
  rd_attrs
    (resourceJenkinsCredentialSSHCreate formatFolderName generateCredentialID
       J d log).1.1 !! key
  = rd_attrs d !! key.
Proof.
  intros Hscope Hdescr.
  destruct (jk_error J log (probe formatFolderName d)) as [msg|] eqn:Hprobe.
  { by rewrite (Create_probe_fails _ _ _ _ _ _ Hprobe). }
  destruct (jk_error J (log ++ [probe formatFolderName d])
              (add formatFolderName d)) as [msg|] eqn:Hadd.
  { by rewrite (Create_add_fails _ _ _ _ _ _ Hprobe Hadd). }
  rewrite (Create_add_succeeds _ _ _ _ _ Hprobe Hadd).
  by rewrite Read_frame.
Qed.

(** Update writes no attribute other than scope and description. *)
Lemma Update_frame formatFolderName generateCredentialID J d log key :
  key ≠ "scope" → key ≠ "description" →
  rd_attrs
    (resourceJenkinsCredentialSSHUpdate formatFolderName generateCredentialID
       J d log).1.1 !! key
  = rd_attrs d !! key.
Proof.
  intros Hscope Hdescr.
  destruct (jk_error J log (update formatFolderName d)) as [msg|] eqn:Hupd.
  { by rewrite (Update_fails _ _ _ _ _ _ Hupd). }
  rewrite (Update_succeeds _ _ _ _ _ Hupd). by rewrite Read_frame.
Qed.

(** X13: whatever the server answers, Create and Update leave every
    attribute other than scope and description as it was: name, domain,
    folder, username, privatekey and passphrase are never written. *)
Theorem create_update_frame
    formatFolderName generateCredentialID J d log key :
  key ≠ "scope" → key ≠ "description" →
  rd_attrs
    (resourceJenkinsCredentialSSHCreate formatFolderName generateCredentialID
       J d log).1.1 !! key
  = rd_attrs d !! key
  ∧ rd_attrs
      (resourceJenkinsCredentialSSHUpdate formatFolderName
         generateCredentialID J d log).1.1 !! key
    = rd_attrs d !! key.
Proof.
  intros Hscope Hdescr. split.
  - by apply Create_frame.
  - by apply Update_frame.
Qed.

Lemma create_update_frame_witness :
  rd_attrs
    (resourceJenkinsCredentialSSHCreate Sample.formatFolderName
       Sample.generateCredentialID healthy example_record []).1.1
    !! "privatekey"
  = Some "PRIVATE KEY".
Proof.
  exact (proj1 (create_update_frame Sample.formatFolderName
                  Sample.generateCredentialID healthy example_record []
                  "privatekey" ltac:(discriminate) ltac:(discriminate))).
Defined.

(** ** The handlers together *)

(** X14: every call Create, Read, Update and Delete issue for a record
    addresses one credential, the formatted folder, the domain and the name
    of the record; and Create, Read and Update return a record with the
    same address, so that the handlers run one after the other keep
    addressing that credential. *)
Theorem handlers_address_one_credential
    formatFolderName generateCredentialID J d log :
  let key :=
    Some (formatFolderName (d_Get d "folder"), d_Get d "domain",
          d_Get d "name") in
  let addressed (before after : list Call) :=
    Forall (λ c, target c = None ∨ target c = key) (issued before after) in
  let create :=
    resourceJenkinsCredentialSSHCreate formatFolderName generateCredentialID
      J d log in
  let read :=
    resourceJenkinsCredentialSSHRead formatFolderName generateCredentialID
      J d log in
  let update :=
    resourceJenkinsCredentialSSHUpdate formatFolderName generateCredentialID
      J d log in
  let delete := resourceJenkinsCredentialSSHDelete formatFolderName J d log in
  (addressed log create.2 ∧ addressed log read.2
   ∧ addressed log update.2 ∧ addressed log delete.2)
  ∧ target (lookup formatFolderName create.1.1) = key
  ∧ target (lookup formatFolderName read.1.1) = key
  ∧ target (lookup formatFolderName update.1.1) = key
  ∧ delete.1.1 = d.
Proof.
  simpl.
  assert (target (add formatFolderName d)
          = Some (formatFolderName (d_Get d "folder"), d_Get d "domain",
                  d_Get d "name")) as Hadd_target.
  { simpl. by rewrite payload_ID. }
  split; [split; [|split; [|split]] | split; [|split; [|split]]].
  - unfold issued.
    destruct (jk_error J log (probe formatFolderName d)) as [msg|] eqn:Hprobe.
    { rewrite (Create_probe_fails _ _ _ _ _ _ Hprobe). simpl.
      rewrite drop_app_length. repeat constructor. }
    destruct (jk_error J (log ++ [probe formatFolderName d])
                (add formatFolderName d)) as [msg|] eqn:Hadd.
    { rewrite (Create_add_fails _ _ _ _ _ _ Hprobe Hadd). simpl.
      rewrite drop_app_length.
      constructor; [by left|]. constructor; [by right|]. constructor. }
    rewrite (Create_add_succeeds _ _ _ _ _ Hprobe Hadd), Read_log.
    rewrite <- app_assoc, drop_app_length.
    constructor; [by left|]. constructor; [by right|].
    constructor; [by right|]. constructor.
  - unfold issued. rewrite Read_log, drop_app_length.
    constructor; [by right|]. constructor.
  - unfold issued.
    destruct (jk_error J log (update formatFolderName d)) as [msg|] eqn:Hupd.
    { rewrite (Update_fails _ _ _ _ _ _ Hupd). simpl.
      rewrite drop_app_length. constructor; [by right|]. constructor. }
    rewrite (Update_succeeds _ _ _ _ _ Hupd), Read_log.
    rewrite <- app_assoc, drop_app_length.
    constructor; [by right|]. constructor; [by right|]. constructor.
  - unfold issued, resourceJenkinsCredentialSSHDelete, bind, cm_Delete,
      request, ret. simpl.
    destruct (jk_error J log _); simpl; rewrite drop_app_length;
      (constructor; [by right|]); constructor.
  - unfold lookup, d_Get. by rewrite !Create_frame.
  - unfold lookup, d_Get. by rewrite !Read_frame.
  - unfold lookup, d_Get. by rewrite !Update_frame.
  - unfold resourceJenkinsCredentialSSHDelete, bind, cm_Delete, request, ret.
    simpl. by destruct (jk_error J log _).
Qed.

(** X15: Import seeds what Read needs. After Import of [folder/domain/name]
    (folder neither starting nor ending with ['/'], domain and name without
    ['/']), Read issues one call, the lookup of that domain and name under
    the formatted folder; when the lookup succeeds the record holds the
    remote scope and description, and the identifier composed from the
    folder and the remote object's ID. *)
Theorem import_then_read
    formatFolderName generateCredentialID J d log folder domain name :
  starts_with_slash folder = false → ends_with_slash folder = false →
  no_slash domain = true → no_slash name = true →
  d_Id d = importID folder domain name →
  let request := CallGetSingle (formatFolderName folder) domain name in
  ∃ d',
    resourceJenkinsCredentialSSHImport generateCredentialID d = ([d'], None)
    ∧ issued log
        (resourceJenkinsCredentialSSHRead formatFolderName
           generateCredentialID J d' log).2
      = [request]
    ∧ (jk_error J log request = None →
       let d'' :=
         (resourceJenkinsCredentialSSHRead formatFolderName
            generateCredentialID J d' log).1.1 in
       d_Get d'' "scope" = Scope (jk_object J log request)
       ∧ d_Get d'' "description" = Description (jk_object J log request)
       ∧ d_Id d''
         = generateCredentialID folder (ID (jk_object J log request))).
Proof.
  intros Hstart Hend Hdomain Hname Hid. simpl.
  exists (imported generateCredentialID folder domain name d).
  destruct (imported_fields generateCredentialID folder domain name d)
    as (Hf & Hd & Hn & _).
  assert (lookup formatFolderName
            (imported generateCredentialID folder domain name d)
          = CallGetSingle (formatFolderName folder) domain name) as Hlookup.
  { unfold lookup. by rewrite Hf, Hd, Hn. }
  split; [|split].
  - apply Import_importID; [by apply Trim_fixed|done..].
  - unfold issued. by rewrite Read_log, drop_app_length, Hlookup.
  - intros Herr. rewrite Read_run, Hlookup, Herr. simpl. rewrite Hf.
    unfold d_Get, d_Set; simpl. by simplify_map_eq.
Qed.

Lemma import_then_read_witness :
  let d' :=
    imported Sample.generateCredentialID "teamA/ops" "_" "my-key"
      {| rd_id := "teamA/ops/_/my-key"; rd_attrs := ∅ |} in
  issued []
    (resourceJenkinsCredentialSSHRead Sample.formatFolderName
       Sample.generateCredentialID healthy d' []).2
  = [CallGetSingle "teamA/ops" "_" "my-key"].
Proof.
  destruct (import_then_read Sample.formatFolderName
              Sample.generateCredentialID healthy
              {| rd_id := "teamA/ops/_/my-key"; rd_attrs := ∅ |} []
              "teamA/ops" "_" "my-key"
              eq_refl eq_refl eq_refl eq_refl eq_refl)
    as (d' & Himport & Hissued & _).
  injection Himport as <-. exact Hissued.
Defined.

(** ** The handlers and the schema *)

(** The attributes the schema marks [ForceNew]. *)
Lemma ForceNew_keys key :
  flagged schema.ForceNew key
  ↔ key = "name" ∨ key = "domain" ∨ key = "folder".
Proof.
  unfold flagged, resourceJenkinsCredentialSSH. split.
  - intros (sch & Hlookup & Hflag).
    apply elem_of_list_to_map_2 in Hlookup.
    repeat
      (apply elem_of_cons in Hlookup as [[= -> ->] | Hlookup];
       [by auto || discriminate Hflag|]).
    by apply elem_of_nil in Hlookup.
  - intros [-> | [-> | ->]]; by eexists.
Qed.

(** X16: the credential a record addresses depends on its [ForceNew]
    attributes only: two records that agree on them issue the same probe and
    address the same credential in their lookup, [Add] and [Update], however
    they differ elsewhere. *)
Theorem address_fixed_by_forcenew formatFolderName d1 d2 :
  (∀ key, flagged schema.ForceNew key → d_Get d1 key = d_Get d2 key) →
  probe formatFolderName d1 = probe formatFolderName d2
  ∧ lookup formatFolderName d1 = lookup formatFolderName d2
  ∧ target (add formatFolderName d1) = target (add formatFolderName d2)
  ∧ target (update formatFolderName d1) = target (update formatFolderName d2).
Proof.
  intros Hagree.
  assert (d_Get d1 "name" = d_Get d2 "name") as Hname
    by (apply Hagree, ForceNew_keys; auto).
  assert (d_Get d1 "domain" = d_Get d2 "domain") as Hdomain
    by (apply Hagree, ForceNew_keys; auto).
  assert (d_Get d1 "folder" = d_Get d2 "folder") as Hfolder
    by (apply Hagree, ForceNew_keys; auto).
  unfold probe, lookup, add, update; simpl.
  by rewrite !payload_ID, Hname, Hdomain, Hfolder.
Qed.

Lemma address_fixed_by_forcenew_witness :
  target (update Sample.formatFolderName example_record)
  = target (update Sample.formatFolderName
              (d_Set "privatekey" "ANOTHER KEY"
                 (d_Set "scope" "SYSTEM" example_record))).
Proof.
  refine (proj2 (proj2 (proj2
    (address_fixed_by_forcenew Sample.formatFolderName example_record
       (d_Set "privatekey" "ANOTHER KEY"
          (d_Set "scope" "SYSTEM" example_record)) _)))).
  intros key [-> | [-> | ->]]%ForceNew_keys; reflexivity.
Defined.

(** X17: an attribute that Read, Create or Update changes is declared in
    the schema as optional, not [ForceNew] and not [Sensitive]: a refresh
    never forces a replacement and never touches a secret. *)
Theorem refresh_changes_mutable_attributes
    formatFolderName generateCredentialID J d log key :
  let changed (run : ResourceData * Diagnostics * list Call) :=
    rd_attrs run.1.1 !! key ≠ rd_attrs d !! key in
  changed (resourceJenkinsCredentialSSHRead formatFolderName
             generateCredentialID J d log)
  ∨ changed (resourceJenkinsCredentialSSHCreate formatFolderName
               generateCredentialID J d log)
  ∨ changed (resourceJenkinsCredentialSSHUpdate formatFolderName
               generateCredentialID J d log) →
  ∃ sch, resourceJenkinsCredentialSSH !! key = Some sch
         ∧ schema.Optional sch = true ∧ schema.Required sch = false
         ∧ schema.ForceNew sch = false ∧ schema.Sensitive sch = false.
Proof.
  simpl. intros Hchanged.
  destruct (decide (key = "scope")) as [->|Hscope]; [by eexists|].
  destruct (decide (key = "description")) as [->|Hdescr]; [by eexists|].
  exfalso. destruct Hchanged as [H | [H | H]]; apply H.
  - by apply Read_frame.
  - by apply Create_frame.
  - by apply Update_frame.
Qed.

Lemma refresh_changes_mutable_attributes_witness :
  ∃ sch, resourceJenkinsCredentialSSH !! "scope" = Some sch
         ∧ schema.Optional sch = true ∧ schema.Required sch = false
         ∧ schema.ForceNew sch = false ∧ schema.Sensitive sch = false.
Proof.
  apply (refresh_changes_mutable_attributes Sample.formatFolderName
           Sample.generateCredentialID healthy example_record [] "scope").
  left. discriminate.
Defined.

(** X18: an attribute that Import changes is one the schema marks
    [ForceNew]: Import seeds the address of the credential and nothing
    else. *)
Theorem import_changes_forcenew_attributes generateCredentialID d d' key :
  (resourceJenkinsCredentialSSHImport generateCredentialID d).1 = [d'] →
  rd_attrs d' !! key ≠ rd_attrs d !! key →
  flagged schema.ForceNew key.
Proof.
  intros Himport Hchanged. apply ForceNew_keys.
  destruct (decide (key = "name")) as [->|Hname]; [by auto|].
  destruct (decide (key = "domain")) as [->|Hdomain]; [by auto|].
  destruct (decide (key = "folder")) as [->|Hfolder]; [by auto|].
  exfalso. apply Hchanged.
  destruct (Import_cases generateCredentialID d)
    as [[_ Hrun] | (_ & segs & domain & name & _ & Hrun)];
    rewrite Hrun in Himport; injection Himport as <-; [done|].
  unfold imported, d_Set, d_SetId; simpl. by rewrite !lookup_insert_ne.
Qed.

Lemma import_changes_forcenew_attributes_witness :
  flagged schema.ForceNew "domain".
Proof.
  apply (import_changes_forcenew_attributes Sample.generateCredentialID
           {| rd_id := "teamA/_/my-key"; rd_attrs := ∅ |}
           (imported Sample.generateCredentialID "teamA" "_" "my-key"
              {| rd_id := "teamA/_/my-key"; rd_attrs := ∅ |})
           "domain").
  - reflexivity.
  - discriminate.
Defined.
